(** * Session authentication core of fastapi-user-auth

    A shallow embedding of [app/models.py], [app/auth.py], [app/services.py],
    [app/database.py], [app/routes/public.py] and the exception handlers of
    [main.py], followed by the properties of the specification that concern
    them.

    Conventions of the embedding:
    - a Python [str] is a [string], one character per element, so that
      [len] is [String.length];
    - a value stored in the session (the session travels as JSON) is a
      [value]; a Python [dict] with string keys is a [gmap string value];
    - [request.session] is a [gmap string value] threaded through every
      handler; a handler is a function from the session to an outcome and
      the session it leaves behind, because a Python exception does not
      undo the writes made before it was raised. *)

From stdpp Require Import gmap strings list fin_maps.

Local Open Scope string_scope.
Local Open Scope Z_scope.

(** ** Values, truthiness, exceptions *)

#[warnings="-register-all"]
Inductive value : Type :=
  | VNone
  | VBool (b : bool)
  | VInt (z : Z)
  | VStr (s : string)
  | VList (l : list value)
  | VDict (d : gmap string value).

(** Python's truth test, as used by [if not user_data]. *)
Definition truthy (v : value) : bool :=
  match v with
  | VNone => false
  | VBool b => b
  | VInt z => negb (z =? 0)
  | VStr s => negb (String.eqb s "")
  | VList l => match l with [] => false | _ => true end
  | VDict d => negb (bool_decide (d = ∅))
  end.

(** The exceptions the modelled code can raise.  [ValidationError] is
    pydantic's; [TypeError] is what unpacking [x] as keyword arguments raises
    when [x] is not a mapping; [AttributeError] is what [x.startswith] raises when [x] is not
    a [str]; [HashFormatError] stands for the error passlib raises on a hash
    it cannot identify or parse. *)
Inductive exn : Type :=
  | HTTPException (status_code : Z) (detail : string)
  | ValidationError
  | TypeError
  | AttributeError
  | HashFormatError.

Inductive Result (A : Type) : Type :=
  | Ok (a : A)
  | Raise (e : exn).
Arguments Ok {A} a.
Arguments Raise {A} e.

(** ** The session and the handler monad *)

Abbreviation Session := (gmap string value).

Definition M (A : Type) : Type := Session → Result A * Session.

Definition ret {A} (a : A) : M A := λ s, (Ok a, s).

Definition raise {A} (e : exn) : M A := λ s, (Raise e, s).

Definition bind {A B} (m : M A) (k : A → M B) : M B :=
  λ s, match m s with
       | (Ok a, s') => k a s'
       | (Raise e, s') => (Raise e, s')
       end.

Definition lift {A} (r : Result A) : M A := λ s, (r, s).

Notation "'let*' x ':=' m 'in' k" := (bind m (λ x, k))
  (at level 10, x name, m at level 100, k at level 200, only parsing).

(** [request.session.get(key)] *)
Definition session_get (key : string) : M (option value) :=
  λ s, (Ok (s !! key), s).

(** [request.session[key] = v] *)
Definition session_set (key : string) (v : value) : M unit :=
  λ s, (Ok tt, <[key := v]> s).

(** [request.session.pop(key, default)] *)
Definition session_pop (key : string) (default : value) : M value :=
  λ s, (Ok (match s !! key with Some v => v | None => default end),
        delete key s).

(** [request.session.clear()] *)
Definition session_clear : M unit := λ _, (Ok tt, ∅).

(** The truth test on the result of [dict.get], which is [None] when the
    key is missing. *)
Definition truthy_opt (o : option value) : bool :=
  match o with
  | Some v => truthy v
  | None => false
  end.

(** ** app/models.py *)

Record User : Type := mkUser {
  username : string;
  name : string;
  email : option string;
  role : string
}.

Record UserInDB : Type := mkUserInDB {
  db_username : string;
  db_name : string;
  hashed_pass : string;
  db_email : option string;
  db_role : string
}.

(** A [str] field with [min_length] and [max_length]. *)
Definition str_field (min_length max_length : nat) (v : value) : option string :=
  match v with
  | VStr s =>
      if (min_length <=? String.length s)%nat && (String.length s <=? max_length)%nat
      then Some s else None
  | _ => None
  end.

Arguments str_field : simpl never.

(** [username: str = Field(..., min_length=3, max_length=50)] *)
Definition validate_username (d : gmap string value) : option string :=
  v ← d !! "username"; str_field 3 50 v.

(** [name: str = Field(..., min_length=1, max_length=100)] *)
Definition validate_name (d : gmap string value) : option string :=
  v ← d !! "name"; str_field 1 100 v.

(** [email: str | None = None] *)
Definition validate_email (d : gmap string value) : option (option string) :=
  match d !! "email" with
  | None => Some None
  | Some VNone => Some None
  | Some (VStr s) => Some (Some s)
  | Some _ => None
  end.

(** [role: str = "user"] *)
Definition validate_role (d : gmap string value) : option string :=
  match d !! "role" with
  | None => Some "user"
  | Some (VStr s) => Some s
  | Some _ => None
  end.

(** [User] called with keyword arguments: every field is validated; keys that are not fields
    are ignored; any failure raises [ValidationError]. *)
Definition User_init (kwargs : gmap string value) : Result User :=
  match validate_username kwargs, validate_name kwargs,
        validate_email kwargs, validate_role kwargs with
  | Some u, Some n, Some e, Some r => Ok (mkUser u n e r)
  | _, _, _, _ => Raise ValidationError
  end.

(** [User] called on an unpacked session value: unpacking anything but a
    mapping is a [TypeError]. *)
Definition User_of_value (user_data : value) : Result User :=
  match user_data with
  | VDict d => User_init d
  | _ => Raise TypeError
  end.

Definition opt_str (o : option string) : value :=
  match o with
  | Some s => VStr s
  | None => VNone
  end.

(** [user.model_dump()] *)
Definition model_dump (u : User) : gmap string value :=
  <["username" := VStr (username u)]>
  (<["name" := VStr (name u)]>
  (<["email" := opt_str (email u)]>
  (<["role" := VStr (role u)]> ∅))).

(** The constraints an instance of [User] satisfies. *)
Definition valid_user (u : User) : Prop :=
  (3 ≤ String.length (username u) ≤ 50)%nat ∧
  (1 ≤ String.length (name u) ≤ 100)%nat.

(** The malformed payloads the specification lists: a required field is
    missing, or [username] or [name] is outside its length bounds. *)
Definition malformed (d : gmap string value) : Prop :=
  d !! "username" = None ∨ d !! "name" = None ∨
  (∃ s, d !! "username" = Some (VStr s) ∧
        (String.length s < 3 ∨ 50 < String.length s)%nat) ∨
  (∃ s, d !! "name" = Some (VStr s) ∧
        (String.length s < 1 ∨ 100 < String.length s)%nat).

(** ** app/auth.py *)

Definition get_current_user (path : string) : M User :=
  let* user_data := session_get "user" in
  if negb (truthy_opt user_data) then
    let* _ := session_set "redirect_after_login" (VStr path) in
    raise (HTTPException 401 "No autenticado")
  else
    match User_of_value (default VNone user_data) with
    | Ok u => ret u
    | Raise _ =>
        let* _ := session_clear in
        raise (HTTPException 401 "Sesión inválida")
    end.

Definition get_optional_user : M (option User) :=
  let* user_data := session_get "user" in
  if negb (truthy_opt user_data) then
    ret None
  else
    match User_of_value (default VNone user_data) with
    | Ok u => ret (Some u)
    | Raise _ => ret None
    end.

Definition require_admin (user : User) : Result User :=
  if negb (String.eqb (role user) "admin") then
    Raise (HTTPException 403
             "Acceso denegado: se requieren permisos de administrador")
  else Ok user.

(** ** app/database.py and app/services.py *)

(** The rows of the [users] table.  The query of [authenticate_user]
    selects the rows whose [username] column equals the parameter;
    [fetchone()] is the first of them. *)
Definition fetchone (db : list UserInDB) (uname : string) : option UserInDB :=
  List.find (λ row, String.eqb (db_username row) uname) db.

(** The keyword arguments of the call
    [User(username=..., name=..., email=..., role=...)]. *)
Definition row_kwargs (row : UserInDB) : gmap string value :=
  <["username" := VStr (db_username row)]>
  (<["name" := VStr (db_name row)]>
  (<["email" := opt_str (db_email row)]>
  (<["role" := VStr (db_role row)]> ∅))).

Inductive Response : Type :=
  | TemplateResponse (template : string) (message : option string)
                     (status_code : Z)
  | RedirectResponse (url : string) (status_code : Z)
  | JSONResponse (detail : string) (status_code : Z).

Section Authenticator.

(** [pwd_context.verify] of passlib, which [verify_password] calls: a
    boolean for a hash it can read, an exception for one it cannot. *)
Variable pwd_context_verify : string → string → Result bool.

Definition verify_password (plain_password hashed_password : string)
  : Result bool :=
  pwd_context_verify plain_password hashed_password.

Definition authenticate_user (db : list UserInDB) (uname password : string)
  : Result (option User) :=
  match fetchone db uname with
  | None => Ok None
  | Some result =>
      match verify_password password (hashed_pass result) with
      | Raise e => Raise e
      | Ok false => Ok None
      | Ok true =>
          match User_init (row_kwargs result) with
          | Ok u => Ok (Some u)
          | Raise e => Raise e
          end
      end
  end.

(** ** app/routes/public.py *)

Definition login (db : list UserInDB) (uname password : string) : M Response :=
  let* user := lift (authenticate_user db uname password) in
  match user with
  | None =>
      ret (TemplateResponse "login.html"
             (Some "Usuario o contraseña incorrectos") 401)
  | Some user =>
      let* _ := session_set "user" (VDict (model_dump user)) in
      let* redirect_url := session_pop "redirect_after_login" (VStr "/dashboard") in
      match redirect_url with
      | VStr url =>
          let url := if negb (String.prefix "/" url) then "/dashboard" else url in
          ret (RedirectResponse url 303)
      | _ => raise AttributeError
      end
  end.

End Authenticator.

Definition login_page (next : option string) : M Response :=
  let* _ := (match next with
             | Some n =>
                 if negb (String.eqb n "")
                 then session_set "redirect_after_login" (VStr n)
                 else ret tt
             | None => ret tt
             end) in
  ret (TemplateResponse "login.html" None 200).

Definition logout : M Response :=
  let* _ := session_clear in
  ret (RedirectResponse "/" 303).

(** ** app/routes/protected.py and app/routes/admin.py

    The dependency of a route runs before its body, with the path of the
    route as [request.url.path]. *)
Definition profile : M Response :=
  let* user := get_current_user "/profile" in
  ret (TemplateResponse "profile.html" None 200).

Definition admin_panel : M Response :=
  let* user := get_current_user "/admin" in
  let* admin := lift (require_admin user) in
  ret (TemplateResponse "admin.html" None 200).

(** ** main.py: the exception handlers

    [HTTPException] 401 and 403 have handlers of the application; any
    other [HTTPException] gets the framework's JSON answer; every other
    exception has no handler and leaves the application as a fault. *)
Definition exception_handlers (r : Result Response) : Result Response :=
  match r with
  | Ok resp => Ok resp
  | Raise (HTTPException 401 _) => Ok (RedirectResponse "/login" 303)
  | Raise (HTTPException 403 detail) =>
      Ok (TemplateResponse "error_403.html" (Some detail) 403)
  | Raise (HTTPException code detail) => Ok (JSONResponse detail code)
  | Raise e => Raise e
  end.

(** ** The remaining routes of app/routes/protected.py and
    app/routes/public.py

    The context handed to a template (the request and the user) is not
    part of [TemplateResponse]; a page is identified by its template and
    status. *)
Definition dashboard : M Response :=
  let* user := get_current_user "/dashboard" in
  ret (TemplateResponse "dashboard.html" None 200).

Definition reportes : M Response :=
  let* user := get_current_user "/dashboard/reportes" in
  ret (TemplateResponse "reportes.html" None 200).

Definition configuracion : M Response :=
  let* user := get_current_user "/configuracion" in
  ret (TemplateResponse "configuracion.html" None 200).

Definition home : M Response :=
  let* user := get_optional_user in
  ret (TemplateResponse "home.html" None 200).

(** ** oldcode.py: the login handler before [AuthService] was split off

    The lookup, the check [not result or not verify_password(...)] and the
    construction of [User] are written in the handler itself. *)
Module oldcode.
Section Login.

Variable pwd_context_verify : string → string → Result bool.

Definition login (db : list UserInDB) (uname password : string) : M Response :=
  match fetchone db uname with
  | None =>
      ret (TemplateResponse "login.html"
             (Some "Usuario o contraseña incorrectos") 401)
  | Some result =>
      let* matches := lift (verify_password pwd_context_verify password
                              (hashed_pass result)) in
      if negb matches then
        ret (TemplateResponse "login.html"
               (Some "Usuario o contraseña incorrectos") 401)
      else
        let* user := lift (User_init (row_kwargs result)) in
        let* _ := session_set "user" (VDict (model_dump user)) in
        let* redirect_url := session_pop "redirect_after_login" (VStr "/dashboard") in
        match redirect_url with
        | VStr url =>
            let url := if negb (String.prefix "/" url) then "/dashboard" else url in
            ret (RedirectResponse url 303)
        | _ => raise AttributeError
        end
  end.

End Login.
End oldcode.

(** ** old_main.py: the variant with a dictionary of users, passwords in
    clear and the session value used as a plain dict

    Its handlers for 401 and 403 answer as those of [main.py] do (the
    redirect to [/login]; the page [error_403.html] with the detail as
    message), so [exception_handlers] serves for both. *)
Module old_main.

Record user_data : Type := mk_user_data {
  password : string;
  ud_role : string;
  ud_name : string
}.

Definition USERS_DB : gmap string user_data :=
  <["user" := mk_user_data "1234" "user" "Usuario Normal"]>
  (<["admon" := mk_user_data "admin" "admin" "Administrador"]> ∅).

Definition get_current_user : M (option value) := session_get "user".

Definition get_current_user_required : M value :=
  let* user := get_current_user in
  if negb (truthy_opt user) then
    raise (HTTPException 401 "No autenticado")
  else ret (default VNone user).

(** [user.get("role") != "admin"]: [get] on anything but a dict is an
    [AttributeError]; a missing key gives [None], which differs from
    ["admin"]. *)
Definition require_admin (user : value) : Result value :=
  match user with
  | VDict d =>
      if negb (match d !! "role" with
               | Some (VStr r) => String.eqb r "admin"
               | _ => false
               end)
      then Raise (HTTPException 403
                    "Acceso denegado: se requiere rol de administrador")
      else Ok user
  | _ => Raise AttributeError
  end.

(** The dict [login] stores in the session. *)
Definition session_user (uname : string) (row : user_data) : gmap string value :=
  <["username" := VStr uname]>
  (<["name" := VStr (ud_name row)]>
  (<["role" := VStr (ud_role row)]> ∅)).

Definition login (uname pass : string) : M Response :=
  match USERS_DB !! uname with
  | None =>
      ret (TemplateResponse "login.html"
             (Some "Usuario o contraseña incorrectos") 401)
  | Some row =>
      if negb (String.eqb (password row) pass) then
        ret (TemplateResponse "login.html"
               (Some "Usuario o contraseña incorrectos") 401)
      else
        let* _ := session_set "user" (VDict (session_user uname row)) in
        if String.eqb (ud_role row) "admin"
        then ret (RedirectResponse "/admon" 303)
        else ret (RedirectResponse "/informe" 303)
  end.

Definition informe : M Response :=
  let* user := get_current_user_required in
  ret (TemplateResponse "informe.html" None 200).

Definition admin_panel : M Response :=
  let* user := get_current_user_required in
  let* admin := lift (require_admin user) in
  ret (TemplateResponse "admon.html" None 200).

End old_main.

(** ** Sample data

    A stand-in for the password hasher, used to run the handlers on
    concrete requests: a token is readable when it carries the scheme
    prefix, and matches the password that follows the prefix. *)
Definition sample_verify (plain hashed : string) : Result bool :=
  if String.prefix "$argon2id$" hashed
  then Ok (String.eqb hashed ("$argon2id$" ++ plain))
  else Raise HashFormatError.

Definition row_admin : UserInDB :=
  mkUserInDB "admin" "Administrador" "$argon2id$s3cret"
             (Some "admin@example.com") "admin".

Definition row_maria : UserInDB :=
  mkUserInDB "maria" "Maria" "$argon2id$clave" None "user".

Definition row_pedro : UserInDB :=
  mkUserInDB "pedro" "Pedro" "not-a-hash" None "user".

Definition sample_db : list UserInDB := [row_admin; row_maria; row_pedro].

Definition user_maria : User := mkUser "maria" "Maria" None "user".

(** A session whose [user] entry lacks [name] and has a short [username]. *)
Definition corrupt_session : Session :=
  <["user" := VDict (<["username" := VStr "ab"]> ∅)]>
  (<["theme" := VStr "dark"]> ∅).

(** A session whose [user] entry is an empty dict. *)
Definition empty_user_session : Session :=
  <["user" := VDict ∅]> (<["theme" := VStr "dark"]> ∅).

(** ** Properties *)

(** *** Truthiness and validation *)

Lemma truthy_dict d : truthy (VDict d) = true ↔ d ≠ ∅.
Proof.
  simpl. rewrite negb_true_iff, bool_decide_eq_false. done.
Qed.

Lemma model_dump_nonempty u : model_dump u ≠ ∅.
Proof. unfold model_dump. apply insert_non_empty. Qed.

Lemma truthy_model_dump u : truthy (VDict (model_dump u)) = true.
Proof. apply truthy_dict, model_dump_nonempty. Qed.

Lemma str_field_Some lo hi s :
  (lo ≤ String.length s ≤ hi)%nat → str_field lo hi (VStr s) = Some s.
Proof.
  intros [Hlo Hhi]. unfold str_field.
  apply Nat.leb_le in Hlo. apply Nat.leb_le in Hhi.
  by rewrite Hlo, Hhi.
Qed.

Lemma str_field_None lo hi s :
  (String.length s < lo ∨ hi < String.length s)%nat →
  str_field lo hi (VStr s) = None.
Proof.
  intros H. unfold str_field.
  destruct (lo <=? String.length s)%nat eqn:Hlo; [|done].
  destruct (String.length s <=? hi)%nat eqn:Hhi; [|done].
  apply Nat.leb_le in Hlo. apply Nat.leb_le in Hhi. lia.
Qed.

Lemma User_init_username_None d :
  validate_username d = None → User_init d = Raise ValidationError.
Proof. intros H. unfold User_init. by rewrite H. Qed.

Lemma User_init_name_None d :
  validate_name d = None → User_init d = Raise ValidationError.
Proof.
  intros H. unfold User_init. rewrite H.
  by destruct (validate_username d).
Qed.

Lemma malformed_invalid d :
  malformed d → User_of_value (VDict d) = Raise ValidationError.
Proof.
  intros [H | [H | [(s & H & Hlen) | (s & H & Hlen)]]]; simpl.
  - apply User_init_username_None. unfold validate_username. by rewrite H.
  - apply User_init_name_None. unfold validate_name. by rewrite H.
  - apply User_init_username_None. unfold validate_username. rewrite H.
    simpl. by apply str_field_None.
  - apply User_init_name_None. unfold validate_name. rewrite H.
    simpl. by apply str_field_None.
Qed.

Lemma User_init_model_dump u : valid_user u → User_init (model_dump u) = Ok u.
Proof.
  intros [Hu Hn]. destruct u as [un nm em rl]; simpl in *.
  unfold User_init, validate_username, validate_name, validate_email,
    validate_role, model_dump; simpl.
  rewrite lookup_insert_eq; simpl. rewrite (str_field_Some 3 50 un Hu).
  rewrite lookup_insert_ne, lookup_insert_eq by done; simpl.
  rewrite (str_field_Some 1 100 nm Hn).
  do 2 (rewrite lookup_insert_ne by done). rewrite lookup_insert_eq.
  do 3 (rewrite lookup_insert_ne by done). rewrite lookup_insert_eq.
  by destruct em.
Qed.

(** *** app/auth.py: the three paths of [get_current_user] *)

Lemma get_current_user_falsy path (s : Session) :
  truthy_opt (s !! "user") = false →
  get_current_user path s =
    (Raise (HTTPException 401 "No autenticado"),
     <["redirect_after_login" := VStr path]> s).
Proof.
  intros H. unfold get_current_user, bind, session_get. by rewrite H.
Qed.

Lemma get_current_user_invalid path (s : Session) v e :
  s !! "user" = Some v → truthy v = true → User_of_value v = Raise e →
  get_current_user path s =
    (Raise (HTTPException 401 "Sesión inválida"), ∅).
Proof.
  intros Hv Ht He. unfold get_current_user, bind, session_get.
  rewrite Hv; simpl. by rewrite Ht, He.
Qed.

Lemma get_current_user_valid path (s : Session) v u :
  s !! "user" = Some v → truthy v = true → User_of_value v = Ok u →
  get_current_user path s = (Ok u, s).
Proof.
  intros Hv Ht Hu. unfold get_current_user, bind, session_get.
  rewrite Hv; simpl. by rewrite Ht, Hu.
Qed.

(** C1 (as amended).  When the session [user] value is absent, or present
    but rejected by the validation of [User], [get_current_user] raises
    [HTTPException] 401.  It records the requested path under
    [redirect_after_login] when the value is absent or falsy; when the
    rejected value is truthy it clears the session instead, so that nothing
    is recorded. *)
Theorem get_current_user_unauthenticated path (s : Session) :
  (s !! "user" = None ∨
   ∃ v e, s !! "user" = Some v ∧ User_of_value v = Raise e) →
  get_current_user path s =
    if truthy_opt (s !! "user")
    then (Raise (HTTPException 401 "Sesión inválida"), ∅)
    else (Raise (HTTPException 401 "No autenticado"),
          <["redirect_after_login" := VStr path]> s).
Proof.
  intros [Hnone | (v & e & Hv & He)].
  - rewrite Hnone; simpl. apply get_current_user_falsy. by rewrite Hnone.
  - destruct (truthy_opt (s !! "user")) eqn:Ht.
    + rewrite Hv in Ht. eapply get_current_user_invalid; eauto.
    + by apply get_current_user_falsy.
Qed.

Lemma get_current_user_unauthenticated_witness :
  get_current_user "/profile" corrupt_session =
    (Raise (HTTPException 401 "Sesión inválida"), ∅) ∧
  get_current_user "/profile" (∅ : Session) =
    (Raise (HTTPException 401 "No autenticado"),
     <["redirect_after_login" := VStr "/profile"]> ∅).
Proof.
  split.
  - apply (get_current_user_unauthenticated "/profile" corrupt_session).
    right. exists (VDict (<["username" := VStr "ab"]> ∅)), ValidationError.
    split; reflexivity.
  - exact (get_current_user_unauthenticated "/profile" ∅ (or_introl eq_refl)).
Defined.

(** C1 (as stated) fails on a truthy corrupt value: the session [user]
    entry is present and rejected by [User], and after [get_current_user]
    no [redirect_after_login] is recorded. *)
Lemma get_current_user_corrupt_records_nothing :
  corrupt_session !! "user" = Some (VDict (<["username" := VStr "ab"]> ∅)) ∧
  User_of_value (VDict (<["username" := VStr "ab"]> ∅)) = Raise ValidationError ∧
  (get_current_user "/profile" corrupt_session).2 !! "redirect_after_login"
    = None ∧
  (get_current_user "/profile" corrupt_session).2 !! "redirect_after_login"
    ≠ Some (VStr "/profile").
Proof. repeat split; try reflexivity. vm_compute. discriminate. Qed.

(** C2 (as amended).  When the session [user] value is truthy and is
    rejected by the validation of [User], [get_current_user] empties the
    session, every key with it, and raises [HTTPException] 401, which the
    application answers with the redirect to the login page. *)
Theorem get_current_user_corrupt_clears path (s : Session) v e :
  s !! "user" = Some v → truthy v = true → User_of_value v = Raise e →
  ∃ detail,
    get_current_user path s = (Raise (HTTPException 401 detail), ∅) ∧
    (∀ key, (get_current_user path s).2 !! key = None) ∧
    exception_handlers (Raise (HTTPException 401 detail))
      = Ok (RedirectResponse "/login" 303).
Proof.
  intros Hv Ht He. exists "Sesión inválida".
  rewrite (get_current_user_invalid path s v e Hv Ht He).
  split; [done|]. split; [|done]. intros key. apply lookup_empty.
Qed.

Lemma get_current_user_corrupt_clears_witness :
  ∃ detail,
    get_current_user "/profile" corrupt_session
      = (Raise (HTTPException 401 detail), ∅) ∧
    (∀ key, (get_current_user "/profile" corrupt_session).2 !! key = None) ∧
    exception_handlers (Raise (HTTPException 401 detail))
      = Ok (RedirectResponse "/login" 303).
Proof.
  exact (get_current_user_corrupt_clears "/profile" corrupt_session
           (VDict (<["username" := VStr "ab"]> ∅)) ValidationError
           eq_refl eq_refl eq_refl).
Defined.

(** C2 (as stated) fails on a present but empty [user] value: the empty
    dict lacks both required fields, yet the session is not cleared: it
    keeps its keys and gains [redirect_after_login]. *)
Lemma get_current_user_empty_dict_keeps_session :
  empty_user_session !! "user" = Some (VDict ∅) ∧
  malformed ∅ ∧
  User_of_value (VDict ∅) = Raise ValidationError ∧
  get_current_user "/profile" empty_user_session =
    (Raise (HTTPException 401 "No autenticado"),
     <["redirect_after_login" := VStr "/profile"]> empty_user_session) ∧
  (get_current_user "/profile" empty_user_session).2 !! "theme"
    = Some (VStr "dark") ∧
  (get_current_user "/profile" empty_user_session).2 ≠ ∅.
Proof.
  split; [reflexivity|]. split; [by left|]. split; [reflexivity|].
  split; [reflexivity|]. split; [reflexivity|].
  rewrite get_current_user_falsy by reflexivity. apply insert_non_empty.
Qed.

(** C3.  For every [User] within the field constraints, validating the
    dict produced by [model_dump] gives the same [User] back; and a
    session whose [user] entry is that dict authenticates as that [User],
    the session being left as it was. *)
Theorem User_model_dump_roundtrip (u : User) :
  valid_user u →
  User_of_value (VDict (model_dump u)) = Ok u ∧
  ∀ path (s : Session),
    get_current_user path (<["user" := VDict (model_dump u)]> s)
      = (Ok u, <["user" := VDict (model_dump u)]> s).
Proof.
  intros Hu.
  assert (Hrt : User_of_value (VDict (model_dump u)) = Ok u)
    by (by apply User_init_model_dump).
  split; [exact Hrt|]. intros path s.
  apply get_current_user_valid with (v := VDict (model_dump u)).
  - apply lookup_insert_eq.
  - apply truthy_model_dump.
  - exact Hrt.
Qed.

Lemma User_model_dump_roundtrip_witness :
  valid_user user_maria ∧
  User_of_value (VDict (model_dump user_maria)) = Ok user_maria.
Proof.
  assert (H : valid_user user_maria) by (unfold valid_user; simpl; lia).
  split; [exact H|]. exact (proj1 (User_model_dump_roundtrip user_maria H)).
Defined.

(** C10.  [get_optional_user] never writes to the session, and it returns
    [None] when the [user] value is absent and when it is present but
    rejected by the validation of [User]. *)
Theorem get_optional_user_frame (s : Session) :
  (get_optional_user s).2 = s ∧
  (s !! "user" = None → (get_optional_user s).1 = Ok None) ∧
  (∀ v e, s !! "user" = Some v → User_of_value v = Raise e →
          (get_optional_user s).1 = Ok None).
Proof.
  unfold get_optional_user, bind, session_get, ret.
  split; [|split].
  - destruct (truthy_opt (s !! "user")); simpl; [|done].
    by destruct (User_of_value _).
  - intros H. by rewrite H.
  - intros v e Hv He. rewrite Hv; simpl.
    destruct (truthy v); simpl; [|done]. by rewrite He.
Qed.

Lemma get_optional_user_frame_witness :
  get_optional_user corrupt_session = (Ok None, corrupt_session) ∧
  get_optional_user (∅ : Session) = (Ok None, ∅).
Proof.
  split.
  - apply injective_projections.
    + exact (proj2 (proj2 (get_optional_user_frame corrupt_session))
               (VDict (<["username" := VStr "ab"]> ∅)) ValidationError
               eq_refl eq_refl).
    + exact (proj1 (get_optional_user_frame corrupt_session)).
  - apply injective_projections.
    + exact (proj1 (proj2 (get_optional_user_frame ∅)) eq_refl).
    + exact (proj1 (get_optional_user_frame ∅)).
Defined.

(** C7.  [require_admin] raises [HTTPException] 403 with the message that
    administrator permissions are required exactly when the role of the
    user is not ["admin"]; an admin is returned unchanged. *)
Theorem require_admin_spec (user : User) :
  (require_admin user =
     Raise (HTTPException 403
              "Acceso denegado: se requieren permisos de administrador")
   ↔ role user ≠ "admin") ∧
  (role user = "admin" → require_admin user = Ok user) ∧
  (∀ e, require_admin user = Raise e →
        exception_handlers (Raise e) =
          Ok (TemplateResponse "error_403.html"
                (Some "Acceso denegado: se requieren permisos de administrador")
                403)).
Proof.
  unfold require_admin.
  destruct (String.eqb_spec (role user) "admin") as [Heq | Hne]; simpl.
  - repeat split; done.
  - repeat split; try done. by intros e [= <-].
Qed.

Lemma require_admin_spec_witness :
  require_admin (mkUser "admin" "Administrador" None "admin")
    = Ok (mkUser "admin" "Administrador" None "admin") ∧
  require_admin user_maria =
    Raise (HTTPException 403
             "Acceso denegado: se requieren permisos de administrador").
Proof.
  split.
  - exact (proj1 (proj2 (require_admin_spec
                           (mkUser "admin" "Administrador" None "admin")))
             eq_refl).
  - apply (proj1 (require_admin_spec user_maria)). discriminate.
Defined.

(** *** app/services.py: the credential lookup *)

Lemma fetchone_None db uname :
  fetchone db uname = None ↔ ∀ row, row ∈ db → db_username row ≠ uname.
Proof.
  unfold fetchone. induction db as [|r db IH]; simpl.
  - split; [|done]. intros _ row Hin. by apply elem_of_nil in Hin.
  - destruct (String.eqb_spec (db_username r) uname) as [Heq | Hne].
    + split; [done|]. intros H. destruct (H r); [left | done].
    + rewrite IH. split.
      * intros H row [-> | Hin]%elem_of_cons; auto.
      * intros H row Hin. apply H. by right.
Qed.

Lemma fetchone_unique db row :
  NoDup (db_username <$> db) → row ∈ db →
  fetchone db (db_username row) = Some row.
Proof.
  unfold fetchone. induction db as [|r db IH]; simpl; intros Hnd Hin.
  - by apply elem_of_nil in Hin.
  - apply NoDup_cons in Hnd as [Hfresh Hnd].
    destruct (String.eqb_spec (db_username r) (db_username row)) as [Heq | Hne].
    + apply elem_of_cons in Hin as [-> | Hin]; [done|].
      destruct Hfresh. rewrite Heq. by apply list_elem_of_fmap_2.
    + apply elem_of_cons in Hin as [-> | Hin]; [done|]. by apply IH.
Qed.

Section AuthenticatorFacts.

Variable verify : string → string → Result bool.

Lemma authenticate_user_unknown db uname password :
  fetchone db uname = None →
  authenticate_user verify db uname password = Ok None.
Proof. intros H. unfold authenticate_user. by rewrite H. Qed.

Lemma authenticate_user_mismatch db uname password row :
  fetchone db uname = Some row →
  verify password (hashed_pass row) = Ok false →
  authenticate_user verify db uname password = Ok None.
Proof.
  intros Hrow Hv. unfold authenticate_user, verify_password.
  by rewrite Hrow, Hv.
Qed.

Lemma authenticate_user_raises db uname password row e :
  fetchone db uname = Some row →
  verify password (hashed_pass row) = Raise e →
  authenticate_user verify db uname password = Raise e.
Proof.
  intros Hrow Hv. unfold authenticate_user, verify_password.
  by rewrite Hrow, Hv.
Qed.

Lemma authenticate_user_match db uname password row :
  fetchone db uname = Some row →
  verify password (hashed_pass row) = Ok true →
  authenticate_user verify db uname password =
    match User_init (row_kwargs row) with
    | Ok u => Ok (Some u)
    | Raise e => Raise e
    end.
Proof.
  intros Hrow Hv. unfold authenticate_user, verify_password.
  by rewrite Hrow, Hv.
Qed.

(** *** app/routes/public.py: the two paths of [login] *)

Lemma login_rejected db uname password (s : Session) :
  authenticate_user verify db uname password = Ok None →
  login verify db uname password s =
    (Ok (TemplateResponse "login.html"
           (Some "Usuario o contraseña incorrectos") 401), s).
Proof. intros H. unfold login, bind, lift. by rewrite H. Qed.

Lemma login_raises db uname password (s : Session) e :
  authenticate_user verify db uname password = Raise e →
  login verify db uname password s = (Raise e, s).
Proof. intros H. unfold login, bind, lift. by rewrite H. Qed.

Lemma login_accepted db uname password (s : Session) user :
  authenticate_user verify db uname password = Ok (Some user) →
  login verify db uname password s =
    (match s !! "redirect_after_login" with
     | None => Ok (RedirectResponse "/dashboard" 303)
     | Some (VStr url) =>
         Ok (RedirectResponse
               (if String.prefix "/" url then url else "/dashboard") 303)
     | Some _ => Raise AttributeError
     end,
     delete "redirect_after_login" (<["user" := VDict (model_dump user)]> s)).
Proof.
  intros H. unfold login, bind, lift, session_set, session_pop.
  rewrite H. rewrite lookup_insert_ne by done.
  destruct (s !! "redirect_after_login") as [[| | |url| |]|]; try done.
  simpl. by destruct (String.prefix "/" url).
Qed.

End AuthenticatorFacts.

Lemma row_kwargs_valid row :
  (3 ≤ String.length (db_username row) ≤ 50)%nat →
  (1 ≤ String.length (db_name row) ≤ 100)%nat →
  User_init (row_kwargs row) =
    Ok (mkUser (db_username row) (db_name row) (db_email row) (db_role row)).
Proof.
  intros Hu Hn.
  apply (User_init_model_dump
           (mkUser (db_username row) (db_name row) (db_email row) (db_role row))).
  by split.
Qed.

Lemma dom_model_dump u :
  dom (model_dump u) = ({["username"; "name"; "email"; "role"]} : gset string).
Proof.
  unfold model_dump. rewrite !dom_insert_L, dom_empty_L. set_solver.
Qed.

(** C4.  A username that no stored row carries, with any password, and a
    stored username with a password the hasher reports as not matching,
    both make [authenticate_user] return [None]; the login handler then
    gives the same response and leaves the same session in both cases. *)
Theorem authenticate_user_same_failure
    (verify : string → string → Result bool) db
    (unknown any_password known wrong_password : string) row :
  (∀ r, r ∈ db → db_username r ≠ unknown) →
  fetchone db known = Some row →
  verify wrong_password (hashed_pass row) = Ok false →
  authenticate_user verify db unknown any_password = Ok None ∧
  authenticate_user verify db known wrong_password = Ok None ∧
  ∀ s : Session, login verify db unknown any_password s
                 = login verify db known wrong_password s.
Proof.
  intros Hunknown Hrow Hwrong.
  assert (H1 : authenticate_user verify db unknown any_password = Ok None)
    by (by apply authenticate_user_unknown, fetchone_None).
  assert (H2 : authenticate_user verify db known wrong_password = Ok None)
    by (by eapply authenticate_user_mismatch).
  split; [done|]. split; [done|]. intros s.
  by rewrite !login_rejected.
Qed.

Lemma authenticate_user_same_failure_witness :
  authenticate_user sample_verify sample_db "nadie" "clave" = Ok None ∧
  authenticate_user sample_verify sample_db "maria" "otra" = Ok None.
Proof.
  assert (Hunknown : ∀ r, r ∈ sample_db → db_username r ≠ "nadie").
  { intros r Hin. unfold sample_db in Hin.
    repeat (apply elem_of_cons in Hin as [-> | Hin]; [discriminate|]).
    by apply elem_of_nil in Hin. }
  destruct (authenticate_user_same_failure sample_verify sample_db
              "nadie" "clave" "maria" "otra" row_maria
              Hunknown eq_refl eq_refl) as (H1 & H2 & _).
  exact (conj H1 H2).
Defined.

(** C5.  When the password matches the hash of a stored record (usernames
    being unique, and the record within the bounds of a credential
    record), [authenticate_user] returns a [User] whose four fields are
    those of the record; its dict has exactly those four keys, so no
    password hash. *)
Theorem authenticate_user_identity
    (verify : string → string → Result bool) db row (password : string) :
  NoDup (db_username <$> db) →
  row ∈ db →
  (3 ≤ String.length (db_username row) ≤ 50)%nat →
  (1 ≤ String.length (db_name row) ≤ 100)%nat →
  verify password (hashed_pass row) = Ok true →
  ∃ u, authenticate_user verify db (db_username row) password = Ok (Some u) ∧
       username u = db_username row ∧ name u = db_name row ∧
       email u = db_email row ∧ role u = db_role row ∧
       dom (model_dump u)
         = ({["username"; "name"; "email"; "role"]} : gset string) ∧
       model_dump u !! "hashed_pass" = None.
Proof.
  intros Hnd Hin Hu Hn Hv.
  exists (mkUser (db_username row) (db_name row) (db_email row) (db_role row)).
  split.
  - rewrite (authenticate_user_match verify db _ password row
               (fetchone_unique db row Hnd Hin) Hv).
    by rewrite row_kwargs_valid.
  - split_and!; done.
Qed.

Lemma authenticate_user_identity_witness :
  authenticate_user sample_verify sample_db "maria" "clave"
    = Ok (Some user_maria).
Proof.
  assert (Hnd : NoDup (db_username <$> sample_db)).
  { apply (bool_decide_unpack (NoDup (db_username <$> sample_db))).
    vm_compute. exact I. }
  assert (Hin : row_maria ∈ sample_db)
    by (unfold sample_db; apply list_elem_of_further, list_elem_of_here).
  assert (Hu : (3 ≤ String.length (db_username row_maria) ≤ 50)%nat)
    by (simpl; lia).
  assert (Hn : (1 ≤ String.length (db_name row_maria) ≤ 100)%nat)
    by (simpl; lia).
  destruct (authenticate_user_identity sample_verify sample_db row_maria
              "clave" Hnd Hin Hu Hn eq_refl)
    as ([un nm em rl] & Hauth & Hun & Hnm & Hem & Hrl & _).
  simpl in Hun, Hnm, Hem, Hrl. subst. exact Hauth.
Defined.

(** A record outside the bounds is rejected by [User], and the exception
    leaves [authenticate_user]: the bounds in C5 are needed. *)
Lemma authenticate_user_short_username :
  authenticate_user sample_verify
    [mkUserInDB "ab" "Ana" "$argon2id$x" None "user"] "ab" "x"
  = Raise ValidationError.
Proof. reflexivity. Qed.

(** C9.  When [authenticate_user] rejects the credentials, [login] answers
    with the login form and status 401 and leaves the session as it was:
    in particular [user] is not set and a pending [redirect_after_login]
    is kept. *)
Theorem login_failure_keeps_session
    (verify : string → string → Result bool) db (uname password : string)
    (s : Session) :
  authenticate_user verify db uname password = Ok None →
  login verify db uname password s =
    (Ok (TemplateResponse "login.html"
           (Some "Usuario o contraseña incorrectos") 401), s) ∧
  (login verify db uname password s).2 !! "user" = s !! "user" ∧
  (login verify db uname password s).2 !! "redirect_after_login"
    = s !! "redirect_after_login".
Proof.
  intros H. by rewrite login_rejected.
Qed.

Lemma login_failure_keeps_session_witness :
  (login sample_verify sample_db "maria" "otra"
     (<["redirect_after_login" := VStr "/profile"]> ∅)).2
  = <["redirect_after_login" := VStr "/profile"]> ∅.
Proof.
  exact (f_equal snd
           (proj1 (login_failure_keeps_session sample_verify sample_db
                     "maria" "otra"
                     (<["redirect_after_login" := VStr "/profile"]> ∅)
                     eq_refl))).
Defined.

(** C6.  With a path recorded under [redirect_after_login], a successful
    login redirects to that path when it starts with ["/"] and to
    ["/dashboard"] when it does not, and removes the recorded value; a
    second successful login on the resulting session redirects to
    ["/dashboard"]. *)
Theorem login_consumes_redirect_once
    (verify : string → string → Result bool) db (uname password : string)
    (user : User) (path : string) (s : Session) :
  authenticate_user verify db uname password = Ok (Some user) →
  let first := login verify db uname password
                 (<["redirect_after_login" := VStr path]> s) in
  first.1 = Ok (RedirectResponse
                  (if String.prefix "/" path then path else "/dashboard") 303) ∧
  first.2 !! "redirect_after_login" = None ∧
  (login verify db uname password first.2).1
    = Ok (RedirectResponse "/dashboard" 303).
Proof.
  intros Hauth first. subst first.
  rewrite (login_accepted verify db uname password _ user Hauth).
  rewrite lookup_insert_eq. cbn [fst snd].
  split; [done|]. split; [apply lookup_delete_eq|].
  rewrite (login_accepted verify db uname password _ user Hauth).
  by rewrite lookup_delete_eq.
Qed.

Lemma login_consumes_redirect_once_witness :
  (login sample_verify sample_db "maria" "clave"
     (get_current_user "/dashboard/reportes" ∅).2).1
    = Ok (RedirectResponse "/dashboard/reportes" 303) ∧
  (login sample_verify sample_db "maria" "clave"
     (login_page (Some "http://evil.example/x") ∅).2).1
    = Ok (RedirectResponse "/dashboard" 303).
Proof.
  split.
  - exact (proj1 (login_consumes_redirect_once sample_verify sample_db
                    "maria" "clave" user_maria "/dashboard/reportes" ∅
                    eq_refl)).
  - exact (proj1 (login_consumes_redirect_once sample_verify sample_db
                    "maria" "clave" user_maria "http://evil.example/x" ∅
                    eq_refl)).
Defined.

(** C8 (as amended).  When the hasher cannot read the stored hash it
    raises an error of its own, distinct from the boolean for a password
    that does not match.  Neither [authenticate_user] nor [login] catches
    it: it leaves the login handler as it was raised, the session
    untouched, and no exception handler of the application turns it into a
    response. *)
Theorem login_hash_error_propagates
    (verify : string → string → Result bool) db (uname password : string)
    row (s : Session) :
  fetchone db uname = Some row →
  verify password (hashed_pass row) = Raise HashFormatError →
  authenticate_user verify db uname password = Raise HashFormatError ∧
  login verify db uname password s = (Raise HashFormatError, s) ∧
  exception_handlers (login verify db uname password s).1
    = Raise HashFormatError.
Proof.
  intros Hrow Hv.
  assert (H : authenticate_user verify db uname password = Raise HashFormatError)
    by (by eapply authenticate_user_raises).
  split; [done|]. by rewrite (login_raises verify db uname password s _ H).
Qed.

Lemma login_hash_error_propagates_witness :
  login sample_verify sample_db "pedro" "clave" ∅ = (Raise HashFormatError, ∅).
Proof.
  exact (proj1 (proj2 (login_hash_error_propagates sample_verify sample_db
                         "pedro" "clave" row_pedro ∅ eq_refl eq_refl))).
Defined.

(** C8 (as stated) fails: for the stored row of [pedro], whose hash the
    hasher cannot read, [authenticate_user] does not report an
    authentication failure ([None]), and the login request ends in an
    exception that no handler of the application answers. *)
Lemma login_unreadable_hash_is_a_fault :
  fetchone sample_db "pedro" = Some row_pedro ∧
  sample_verify "clave" (hashed_pass row_pedro) = Raise HashFormatError ∧
  authenticate_user sample_verify sample_db "pedro" "clave" ≠ Ok None ∧
  (∀ resp, exception_handlers
             (login sample_verify sample_db "pedro" "clave" ∅).1 ≠ Ok resp).
Proof.
  split; [reflexivity|]. split; [reflexivity|]. split; [discriminate|].
  intros resp. discriminate.
Qed.

(** The scenarios of the specification: an anonymous request to
    [/profile] is answered with the redirect to [/login] and records
    [/profile]; the login that follows lands on [/profile]; the admin panel
    then refuses this user with status 403, and serves an admin. *)
Example anonymous_profile_then_login :
  let denied := profile ∅ in
  let logged := login sample_verify sample_db "maria" "clave" denied.2 in
  exception_handlers denied.1 = Ok (RedirectResponse "/login" 303) ∧
  denied.2 !! "redirect_after_login" = Some (VStr "/profile") ∧
  logged.1 = Ok (RedirectResponse "/profile" 303) ∧
  exception_handlers (admin_panel logged.2).1
    = Ok (TemplateResponse "error_403.html"
            (Some "Acceso denegado: se requieren permisos de administrador") 403).
Proof. vm_compute. repeat split. Qed.

Example admin_login_then_admin_panel :
  let logged := login sample_verify sample_db "admin" "s3cret" ∅ in
  logged.1 = Ok (RedirectResponse "/dashboard" 303) ∧
  exception_handlers (admin_panel logged.2).1
    = Ok (TemplateResponse "admin.html" None 200).
Proof. vm_compute. repeat split. Qed.

(** ** Further properties of the code *)

(** *** Validation of [User] *)

Lemma str_field_inv lo hi v s :
  str_field lo hi v = Some s →
  v = VStr s ∧ (lo ≤ String.length s ≤ hi)%nat.
Proof.
  unfold str_field. destruct v as [| | |s'| |]; try done.
  destruct (lo <=? String.length s')%nat eqn:Hlo; [|done].
  destruct (String.length s' <=? hi)%nat eqn:Hhi; [|done].
  intros [= ->]. apply Nat.leb_le in Hlo. apply Nat.leb_le in Hhi. done.
Qed.

Lemma User_init_inv d u :
  User_init d = Ok u →
  d !! "username" = Some (VStr (username u)) ∧
  d !! "name" = Some (VStr (name u)) ∧
  validate_email d = Some (email u) ∧
  validate_role d = Some (role u) ∧
  valid_user u.
Proof.
  unfold User_init, validate_username, validate_name.
  destruct (d !! "username") as [vu|] eqn:Hvu; simpl; [|done].
  destruct (str_field 3 50 vu) as [un|] eqn:Hun; [|done].
  destruct (d !! "name") as [vn|] eqn:Hvn; simpl; [|done].
  destruct (str_field 1 100 vn) as [nm|] eqn:Hnm; [|done].
  destruct (validate_email d) as [em|]; [|done].
  destruct (validate_role d) as [rl|]; [|done].
  intros [= <-]. simpl.
  apply str_field_inv in Hun as [-> Hun]. apply str_field_inv in Hnm as [-> Hnm].
  by unfold valid_user.
Qed.

Lemma get_current_user_cases path (s : Session) :
  (truthy_opt (s !! "user") = false ∧
   get_current_user path s =
     (Raise (HTTPException 401 "No autenticado"),
      <["redirect_after_login" := VStr path]> s)) ∨
  (∃ v e, s !! "user" = Some v ∧ truthy v = true ∧
          User_of_value v = Raise e ∧
          get_current_user path s =
            (Raise (HTTPException 401 "Sesión inválida"), ∅)) ∨
  (∃ v u, s !! "user" = Some v ∧ truthy v = true ∧
          User_of_value v = Ok u ∧ get_current_user path s = (Ok u, s)).
Proof.
  destruct (truthy_opt (s !! "user")) eqn:Ht.
  - right. destruct (s !! "user") as [v|] eqn:Hv; [|done]. simpl in Ht.
    destruct (User_of_value v) as [u|e] eqn:Hu.
    + right. exists v, u. split_and!; try done.
      by apply get_current_user_valid with (v := v).
    + left. exists v, e. split_and!; try done.
      by apply get_current_user_invalid with (v := v) (e := e).
  - left. split; [done|]. by apply get_current_user_falsy.
Qed.

(** X1.  Whenever [get_current_user] returns a user, that user is within
    the field bounds of [User], the session is left exactly as it was, and
    the session [user] entry is a non-empty dict carrying that username
    and name. *)
Theorem get_current_user_success path (s s' : Session) u :
  get_current_user path s = (Ok u, s') →
  s' = s ∧ valid_user u ∧
  ∃ d, s !! "user" = Some (VDict d) ∧ d ≠ ∅ ∧
       d !! "username" = Some (VStr (username u)) ∧
       d !! "name" = Some (VStr (name u)).
Proof.
  intros H.
  destruct (get_current_user_cases path s)
    as [[_ Hc] | [(v & e & _ & _ & _ & Hc) | (v & u' & Hv & Ht & Hu & Hc)]];
    rewrite Hc in H; try done.
  injection H as -> ->. split; [done|].
  destruct v as [| | | | |d]; try done. simpl in Hu.
  apply User_init_inv in Hu as (Hun & Hnm & _ & _ & Hvalid).
  split; [done|]. exists d. split_and!; try done.
  by apply truthy_dict.
Qed.

Lemma get_current_user_success_witness :
  valid_user user_maria.
Proof.
  exact (proj1 (proj2 (get_current_user_success "/profile"
                         (<["user" := VDict (model_dump user_maria)]> ∅)
                         (<["user" := VDict (model_dump user_maria)]> ∅)
                         user_maria eq_refl))).
Defined.

(** X2.  [get_optional_user] never raises, and it returns a user exactly
    when [get_current_user] would return that user on the same session. *)
Theorem get_optional_user_agrees path (s : Session) :
  (∃ o, (get_optional_user s).1 = Ok o) ∧
  ∀ u, (get_optional_user s).1 = Ok (Some u) ↔
       (get_current_user path s).1 = Ok u.
Proof.
  unfold get_optional_user, bind, session_get, ret.
  destruct (get_current_user_cases path s)
    as [[Ht Hc] | [(v & e & Hv & Ht & He & Hc) | (v & u' & Hv & Ht & Hu & Hc)]];
    rewrite Hc; clear Hc.
  - rewrite Ht; simpl. split; [by eexists|]. by intros u; split.
  - rewrite Hv; simpl. rewrite Ht, He; simpl.
    split; [by eexists|]. by intros u; split.
  - rewrite Hv; simpl. rewrite Ht, Hu; simpl.
    split; [by eexists|]. intros u; split; by intros [= ->].
Qed.

(** X3.  Keys other than the four fields of [User] play no part in the
    validation: adding or replacing such a key in the session dict does
    not change the outcome of [User]. *)
Theorem User_init_ignores_extra_keys (d : gmap string value) key v :
  key ≠ "username" → key ≠ "name" → key ≠ "email" → key ≠ "role" →
  User_init (<[key := v]> d) = User_init d.
Proof.
  intros Hu Hn He Hr.
  unfold User_init, validate_username, validate_name, validate_email,
    validate_role.
  by rewrite !lookup_insert_ne by done.
Qed.

Lemma User_init_ignores_extra_keys_witness :
  User_init (<["hashed_pass" := VStr "x"]> (model_dump user_maria))
  = User_init (model_dump user_maria).
Proof.
  apply (User_init_ignores_extra_keys (model_dump user_maria)
           "hashed_pass" (VStr "x")); discriminate.
Defined.

(** X4.  A session dict gives the role ["admin"] only when its [role]
    entry is the string ["admin"]: whenever [get_current_user] followed by
    [require_admin] lets a request through, the session says so
    explicitly.  A dict without a [role] entry validates with the role
    ["user"] and is refused. *)
Theorem require_admin_needs_explicit_role path (s : Session) :
  (∀ u s', get_current_user path s = (Ok u, s') →
           require_admin u = Ok u →
           ∃ d, s !! "user" = Some (VDict d) ∧
                d !! "role" = Some (VStr "admin")) ∧
  (∀ d u, s !! "user" = Some (VDict d) → d !! "role" = None →
          User_init d = Ok u →
          role u = "user" ∧
          require_admin u =
            Raise (HTTPException 403
                     "Acceso denegado: se requieren permisos de administrador")).
Proof.
  split.
  - intros u s' H Hadmin.
    destruct (get_current_user_cases path s)
      as [[_ Hc] | [(v & e & _ & _ & _ & Hc) | (v & u' & Hv & Ht & Hu & Hc)]];
      rewrite Hc in H; try done.
    injection H as -> ->.
    destruct v as [| | | | |d]; try done. simpl in Hu.
    apply User_init_inv in Hu as (_ & _ & _ & Hrole & _).
    exists d. split; [done|].
    unfold require_admin in Hadmin.
    destruct (String.eqb_spec (role u) "admin") as [Heq | Hne]; [|done].
    unfold validate_role in Hrole. rewrite Heq in Hrole.
    destruct (d !! "role") as [[| | |r| |]|]; try done. by injection Hrole as ->.
  - intros d u Hd Hnone Hu.
    apply User_init_inv in Hu as (_ & _ & _ & Hrole & _).
    unfold validate_role in Hrole. rewrite Hnone in Hrole.
    injection Hrole as Hrole. unfold require_admin. by rewrite <- Hrole.
Qed.

Lemma require_admin_needs_explicit_role_witness :
  role (mkUser "maria" "Maria" None "user") = "user" ∧
  require_admin (mkUser "maria" "Maria" None "user") =
    Raise (HTTPException 403
             "Acceso denegado: se requieren permisos de administrador").
Proof.
  exact (proj2 (require_admin_needs_explicit_role "/admin"
                  (<["user" := VDict (<["username" := VStr "maria"]>
                                        (<["name" := VStr "Maria"]> ∅))]> ∅))
           (<["username" := VStr "maria"]> (<["name" := VStr "Maria"]> ∅))
           (mkUser "maria" "Maria" None "user") eq_refl eq_refl eq_refl).
Defined.

(** *** The authenticator and the login handler *)

Lemma fetchone_Some db uname row :
  fetchone db uname = Some row → row ∈ db ∧ db_username row = uname.
Proof.
  unfold fetchone. induction db as [|r db IH]; simpl; [done|].
  destruct (String.eqb_spec (db_username r) uname) as [Heq | Hne].
  - intros [= ->]. split; [left | done].
  - intros H. destruct (IH H) as [Hin Hname]. split; [by right | done].
Qed.

(** X5.  [authenticate_user] returns a user only when a stored row carries
    exactly the requested username and the hasher accepted the password
    against the hash of that row; the user then has the four fields of the
    row and is within the bounds of [User]. *)
Theorem authenticate_user_sound
    (verify : string → string → Result bool) db (uname password : string) u :
  authenticate_user verify db uname password = Ok (Some u) →
  ∃ row, row ∈ db ∧ db_username row = uname ∧
         verify password (hashed_pass row) = Ok true ∧
         username u = uname ∧ name u = db_name row ∧
         email u = db_email row ∧ role u = db_role row ∧
         valid_user u.
Proof.
  unfold authenticate_user, verify_password. intros H.
  destruct (fetchone db uname) as [row|] eqn:Hrow; [|done].
  destruct (verify password (hashed_pass row)) as [[|]|e] eqn:Hv; try done.
  destruct (User_init (row_kwargs row)) as [u'|e] eqn:Hu; [|done].
  injection H as ->.
  apply fetchone_Some in Hrow as [Hin Hname].
  apply User_init_inv in Hu as (Hun & Hnm & Hem & Hrl & Hvalid).
  unfold row_kwargs in Hun, Hnm, Hem, Hrl.
  unfold validate_email, validate_role in Hem, Hrl.
  rewrite lookup_insert_eq in Hun.
  rewrite lookup_insert_ne, lookup_insert_eq in Hnm by done.
  do 2 (rewrite lookup_insert_ne in Hem by done). rewrite lookup_insert_eq in Hem.
  do 3 (rewrite lookup_insert_ne in Hrl by done). rewrite lookup_insert_eq in Hrl.
  exists row. injection Hun as Hun. injection Hnm as Hnm. injection Hrl as Hrl.
  split_and!; try done; try congruence.
  destruct (db_email row); simpl in Hem; congruence.
Qed.

Lemma authenticate_user_sound_witness :
  ∃ row, row ∈ sample_db ∧ db_username row = "maria" ∧
         sample_verify "clave" (hashed_pass row) = Ok true ∧
         username user_maria = "maria" ∧ name user_maria = db_name row ∧
         email user_maria = db_email row ∧ role user_maria = db_role row ∧
         valid_user user_maria.
Proof.
  exact (authenticate_user_sound sample_verify sample_db "maria" "clave"
           user_maria eq_refl).
Defined.

Lemma authenticate_user_valid
    (verify : string → string → Result bool) db (uname password : string) u :
  authenticate_user verify db uname password = Ok (Some u) → valid_user u.
Proof.
  unfold authenticate_user. intros H.
  destruct (fetchone db uname) as [row|]; [|done].
  destruct (verify_password verify password (hashed_pass row)) as [[|]|e];
    try done.
  destruct (User_init (row_kwargs row)) as [u'|e] eqn:Hu; [|done].
  injection H as ->. by apply User_init_inv in Hu as (_ & _ & _ & _ & Hvalid).
Qed.

Lemma get_optional_user_valid (s : Session) v u :
  s !! "user" = Some v → truthy v = true → User_of_value v = Ok u →
  get_optional_user s = (Ok (Some u), s).
Proof.
  intros Hv Ht Hu. unfold get_optional_user, bind, session_get.
  rewrite Hv; simpl. by rewrite Ht, Hu.
Qed.

(** X6.  When [authenticate_user] accepts the credentials, the session
    that [login] leaves authenticates as the user it returned:
    [get_current_user] returns that user on any path and
    [get_optional_user] returns it too, neither changing the session. *)
Theorem login_then_authenticated
    (verify : string → string → Result bool) db (uname password : string)
    (s : Session) u path :
  authenticate_user verify db uname password = Ok (Some u) →
  let s' := (login verify db uname password s).2 in
  get_current_user path s' = (Ok u, s') ∧
  get_optional_user s' = (Ok (Some u), s').
Proof.
  intros Hauth s'.
  assert (Hvalid : valid_user u)
    by (by eapply authenticate_user_valid).
  assert (Hs' : s' !! "user" = Some (VDict (model_dump u))).
  { subst s'. rewrite (login_accepted verify db uname password s u Hauth).
    cbn [snd]. rewrite lookup_delete_ne by done. apply lookup_insert_eq. }
  assert (Hu : User_of_value (VDict (model_dump u)) = Ok u)
    by (by apply User_init_model_dump).
  split.
  - apply get_current_user_valid with (v := VDict (model_dump u));
      [done | apply truthy_model_dump | done].
  - apply get_optional_user_valid with (v := VDict (model_dump u));
      [done | apply truthy_model_dump | done].
Qed.

Lemma login_then_authenticated_witness :
  get_current_user "/admin"
    (login sample_verify sample_db "maria" "clave" ∅).2
  = (Ok user_maria, (login sample_verify sample_db "maria" "clave" ∅).2).
Proof.
  exact (proj1 (login_then_authenticated sample_verify sample_db
                  "maria" "clave" ∅ user_maria "/admin" eq_refl)).
Defined.

(** X7.  Whatever the session holds, a response of [login] that is a
    redirect has status 303 and a target that starts with ["/"]: the
    handler never redirects to a URL with a scheme or a host of its own
    spelling. *)
Theorem login_redirect_is_local
    (verify : string → string → Result bool) db (uname password : string)
    (s : Session) url code :
  (login verify db uname password s).1 = Ok (RedirectResponse url code) →
  String.prefix "/" url = true ∧ code = 303.
Proof.
  intros H.
  destruct (authenticate_user verify db uname password) as [[u|]|e] eqn:Hauth.
  - rewrite (login_accepted verify db uname password s u Hauth) in H.
    cbn [fst] in H.
    destruct (s !! "redirect_after_login") as [[| | |target| |]|]; try done.
    + destruct (String.prefix "/" target) eqn:Hp; by injection H as <- <-.
    + by injection H as <- <-.
  - by rewrite (login_rejected verify db uname password s Hauth) in H.
  - by rewrite (login_raises verify db uname password s e Hauth) in H.
Qed.

Lemma login_redirect_is_local_witness :
  String.prefix "/" "/dashboard" = true ∧ 303 = 303.
Proof.
  exact (login_redirect_is_local sample_verify sample_db "maria" "clave"
           (<["redirect_after_login" := VStr "http://evil.example/x"]> ∅)
           "/dashboard" 303 eq_refl).
Defined.

(** X8.  The old login handler of [oldcode.py] and the handler of
    [app/routes/public.py] built on [AuthService.authenticate_user] give
    the same outcome and the same session on every input. *)
Theorem oldcode_login_same
    (verify : string → string → Result bool) db (uname password : string)
    (s : Session) :
  oldcode.login verify db uname password s = login verify db uname password s.
Proof.
  unfold oldcode.login, login, authenticate_user, bind, lift.
  destruct (fetchone db uname) as [row|]; [|done].
  destruct (verify_password verify password (hashed_pass row)) as [[|]|e];
    try done.
  simpl. by destruct (User_init (row_kwargs row)).
Qed.

(** *** Logout, the login page and the pending redirect *)

(** X9.  [logout] empties the session whatever it held and redirects to
    ["/"] with status 303; the next request to a protected route is then
    refused with 401 and records its own path, which becomes the only
    entry of the session, and [get_optional_user] finds no user. *)
Theorem logout_then_unauthenticated (s : Session) path :
  logout s = (Ok (RedirectResponse "/" 303), ∅) ∧
  get_current_user path (logout s).2 =
    (Raise (HTTPException 401 "No autenticado"),
     {["redirect_after_login" := VStr path]}) ∧
  get_optional_user (logout s).2 = (Ok None, ∅).
Proof.
  assert (H : logout s = (Ok (RedirectResponse "/" 303), ∅)) by done.
  rewrite H. cbn [snd]. split; [done|]. split; [|done].
  by rewrite get_current_user_falsy.
Qed.

(** X10.  Only one pending redirect is kept and the last writer wins:
    when no user is in the session, after two refused requests the
    recorded path is that of the second; and a visit of the login page
    with a non-empty [next] replaces the recorded path by [next], while a
    visit without [next], or with an empty one, leaves the session as it
    was. *)
Theorem redirect_last_writer_wins (s : Session) (p1 p2 next : string) :
  truthy_opt (s !! "user") = false →
  (get_current_user p2 (get_current_user p1 s).2).2
    = <["redirect_after_login" := VStr p2]> s ∧
  (next ≠ "" →
   (login_page (Some next) (get_current_user p1 s).2).2
     = <["redirect_after_login" := VStr next]> s) ∧
  (login_page None (get_current_user p1 s).2).2 = (get_current_user p1 s).2 ∧
  (login_page (Some "") (get_current_user p1 s).2).2 = (get_current_user p1 s).2.
Proof.
  intros Ht.
  rewrite (get_current_user_falsy p1 s Ht). cbn [snd].
  split_and!.
  - rewrite get_current_user_falsy.
    + cbn [snd]. apply insert_insert_eq.
    + by rewrite lookup_insert_ne.
  - intros Hnext. unfold login_page, bind, session_set.
    apply String.eqb_neq in Hnext. rewrite Hnext. cbn. apply insert_insert_eq.
  - done.
  - done.
Qed.

Lemma redirect_last_writer_wins_witness :
  (get_current_user "/profile" (get_current_user "/dashboard" ∅).2).2
    = <["redirect_after_login" := VStr "/profile"]> ∅.
Proof.
  exact (proj1 (redirect_last_writer_wins ∅ "/dashboard" "/profile" "/x"
                  eq_refl)).
Defined.

(** X11.  The login page never touches the [user] entry and always
    answers with the login form, so that a user who is logged in stays
    logged in across a visit of [/login]. *)
Theorem login_page_keeps_user (s : Session) next path :
  (login_page next s).1 = Ok (TemplateResponse "login.html" None 200) ∧
  (login_page next s).2 !! "user" = s !! "user" ∧
  (get_current_user path (login_page next s).2).1 = (get_current_user path s).1.
Proof.
  assert (Hresp : (login_page next s).1
                  = Ok (TemplateResponse "login.html" None 200)).
  { unfold login_page, bind. destruct next as [n|]; [|done].
    by destruct (negb (n =? "")%string). }
  assert (Huser : (login_page next s).2 !! "user" = s !! "user").
  { unfold login_page, bind, session_set. destruct next as [n|]; [|done].
    destruct (negb (n =? "")%string); [|done]. cbn.
    by rewrite lookup_insert_ne. }
  split_and!; try done.
  destruct (get_current_user_cases path s)
    as [[Ht Hc] | [(v & e & Hv & Ht & He & Hc) | (v & u & Hv & Ht & Hu & Hc)]];
    rewrite Hc; cbn [fst].
  - rewrite get_current_user_falsy; [done | by rewrite Huser].
  - rewrite (get_current_user_invalid path _ v e); [done | congruence | done..].
  - rewrite (get_current_user_valid path _ v u); [done | congruence | done..].
Qed.

(** *** The routes and the exception handlers *)

Lemma get_optional_user_None_falsy (s : Session) :
  truthy_opt (s !! "user") = false → get_optional_user s = (Ok None, s).
Proof.
  intros Ht. unfold get_optional_user, bind, session_get. by rewrite Ht.
Qed.

Lemma get_optional_user_None_invalid (s : Session) v e :
  s !! "user" = Some v → truthy v = true → User_of_value v = Raise e →
  get_optional_user s = (Ok None, s).
Proof.
  intros Hv Ht He. unfold get_optional_user, bind, session_get.
  rewrite Hv; simpl. by rewrite Ht, He.
Qed.

(** A route that depends on [get_current_user] alone. *)
Lemma protected_dispatch path page (s : Session) :
  let route : M Response :=
    bind (get_current_user path) (λ _, ret (TemplateResponse page None 200)) in
  (∃ u, get_optional_user s = (Ok (Some u), s) ∧
        route s = (Ok (TemplateResponse page None 200), s)) ∨
  (get_optional_user s = (Ok None, s) ∧
   exception_handlers (route s).1 = Ok (RedirectResponse "/login" 303)).
Proof.
  intros route. subst route. unfold bind.
  destruct (get_current_user_cases path s)
    as [[Ht Hc] | [(v & e & Hv & Ht & He & Hc) | (v & u & Hv & Ht & Hu & Hc)]];
    rewrite Hc.
  - right. split; [by apply get_optional_user_None_falsy | done].
  - right. split; [by eapply get_optional_user_None_invalid | done].
  - left. exists u. split; [by eapply get_optional_user_valid | done].
Qed.

(** X12.  Each of the four protected routes has exactly two outcomes once
    the exception handlers have run: when the session holds a valid user
    its page is served with status 200 and the session is unchanged;
    otherwise the answer is the 303 redirect to [/login].  No request to
    them ends in a fault, whatever the session holds. *)
Theorem protected_routes_dispatch (s : Session) (route : M Response) page :
  (route, page) ∈ [(dashboard, "dashboard.html"); (profile, "profile.html");
                   (reportes, "reportes.html");
                   (configuracion, "configuracion.html")] →
  (∃ u, get_optional_user s = (Ok (Some u), s) ∧
        route s = (Ok (TemplateResponse page None 200), s)) ∨
  (get_optional_user s = (Ok None, s) ∧
   exception_handlers (route s).1 = Ok (RedirectResponse "/login" 303)).
Proof.
  intros Hin.
  repeat (apply elem_of_cons in Hin as [[= -> ->] | Hin];
          [apply protected_dispatch|]).
  by apply elem_of_nil in Hin.
Qed.

Lemma protected_routes_dispatch_witness :
  (∃ u, get_optional_user corrupt_session = (Ok (Some u), corrupt_session) ∧
        reportes corrupt_session
          = (Ok (TemplateResponse "reportes.html" None 200), corrupt_session)) ∨
  (get_optional_user corrupt_session = (Ok None, corrupt_session) ∧
   exception_handlers (reportes corrupt_session).1
     = Ok (RedirectResponse "/login" 303)).
Proof.
  apply (protected_routes_dispatch corrupt_session reportes "reportes.html").
  do 2 apply list_elem_of_further. apply list_elem_of_here.
Defined.

(** X13.  The admin panel checks authentication before the role.  Without
    a valid user in the session the answer is the redirect to [/login],
    never a 403.  With a valid user whose role is not ["admin"] the answer
    is the 403 page carrying the reason, and the session is left as it
    was, so the user stays logged in.  With an admin the panel is served
    and the session is unchanged. *)
Theorem admin_panel_dispatch (s : Session) :
  (get_optional_user s = (Ok None, s) →
   exception_handlers (admin_panel s).1 = Ok (RedirectResponse "/login" 303)) ∧
  (∀ u, get_optional_user s = (Ok (Some u), s) → role u ≠ "admin" →
        (admin_panel s).2 = s ∧
        exception_handlers (admin_panel s).1 =
          Ok (TemplateResponse "error_403.html"
                (Some "Acceso denegado: se requieren permisos de administrador")
                403)) ∧
  (∀ u, get_optional_user s = (Ok (Some u), s) → role u = "admin" →
        admin_panel s = (Ok (TemplateResponse "admin.html" None 200), s)).
Proof.
  unfold admin_panel, bind, lift, require_admin.
  destruct (get_current_user_cases "/admin" s)
    as [[Ht Hc] | [(v & e & Hv & Ht & He & Hc) | (v & u & Hv & Ht & Hu & Hc)]];
    rewrite Hc.
  - rewrite (get_optional_user_None_falsy s Ht). split_and!; done.
  - rewrite (get_optional_user_None_invalid s v e Hv Ht He). split_and!; done.
  - rewrite (get_optional_user_valid s v u Hv Ht Hu). split_and!; [done|..].
    + intros u' [= <-] Hrole. apply String.eqb_neq in Hrole.
      by rewrite Hrole.
    + intros u' [= <-] Hrole. apply String.eqb_eq in Hrole.
      by rewrite Hrole.
Qed.

Lemma admin_panel_dispatch_witness :
  exception_handlers (admin_panel (∅ : Session)).1
  = Ok (RedirectResponse "/login" 303).
Proof.
  exact (proj1 (admin_panel_dispatch ∅) eq_refl).
Defined.

(** X14.  The home page is served with status 200 for every session, also
    one whose [user] entry is corrupt, and the session is left as it
    was. *)
Theorem home_always_served (s : Session) :
  home s = (Ok (TemplateResponse "home.html" None 200), s).
Proof.
  unfold home, bind.
  destruct (get_current_user_cases "/" s)
    as [[Ht _] | [(v & e & Hv & Ht & He & _) | (v & u & Hv & Ht & Hu & _)]].
  - by rewrite (get_optional_user_None_falsy s Ht).
  - by rewrite (get_optional_user_None_invalid s v e Hv Ht He).
  - by rewrite (get_optional_user_valid s v u Hv Ht Hu).
Qed.

(** X15.  A stored row whose username or name is outside the bounds of
    [User] cannot log in even with the right password: the construction
    of [User] raises [ValidationError], which leaves [authenticate_user]
    and [login] as a fault that no handler answers; the session is left as
    it was, without a [user] entry being written. *)
Theorem login_row_out_of_bounds
    (verify : string → string → Result bool) db (uname password : string)
    row (s : Session) :
  fetchone db uname = Some row →
  verify password (hashed_pass row) = Ok true →
  (String.length (db_username row) < 3 ∨ 50 < String.length (db_username row) ∨
   String.length (db_name row) < 1 ∨ 100 < String.length (db_name row))%nat →
  authenticate_user verify db uname password = Raise ValidationError ∧
  login verify db uname password s = (Raise ValidationError, s) ∧
  exception_handlers (login verify db uname password s).1
    = Raise ValidationError.
Proof.
  intros Hrow Hv Hbounds.
  assert (Hinit : User_init (row_kwargs row) = Raise ValidationError).
  { apply (malformed_invalid (row_kwargs row)). unfold malformed, row_kwargs.
    destruct Hbounds as [H | [H | [H | H]]].
    - right; right; left. exists (db_username row).
      split; [apply lookup_insert_eq | by left].
    - right; right; left. exists (db_username row).
      split; [apply lookup_insert_eq | by right].
    - right; right; right. exists (db_name row).
      rewrite lookup_insert_ne, lookup_insert_eq by done. split; [done | by left].
    - right; right; right. exists (db_name row).
      rewrite lookup_insert_ne, lookup_insert_eq by done. split; [done | by right]. }
  assert (Hauth : authenticate_user verify db uname password
                  = Raise ValidationError).
  { rewrite (authenticate_user_match verify db uname password row Hrow Hv).
    by rewrite Hinit. }
  split; [done|].
  by rewrite (login_raises verify db uname password s _ Hauth).
Qed.

Lemma login_row_out_of_bounds_witness :
  login sample_verify [mkUserInDB "ab" "Ana" "$argon2id$x" None "user"]
    "ab" "x" corrupt_session
  = (Raise ValidationError, corrupt_session).
Proof.
  refine (proj1 (proj2 (login_row_out_of_bounds sample_verify
                          [mkUserInDB "ab" "Ana" "$argon2id$x" None "user"]
                          "ab" "x"
                          (mkUserInDB "ab" "Ana" "$argon2id$x" None "user")
                          corrupt_session eq_refl eq_refl _))).
  left. simpl. lia.
Defined.

(** *** old_main.py *)

Lemma old_main_session_user_nonempty uname row :
  old_main.session_user uname row ≠ ∅.
Proof. unfold old_main.session_user. apply insert_non_empty. Qed.

Lemma old_main_login_cases (uname pass : string) (s : Session) :
  old_main.login uname pass s =
    (Ok (TemplateResponse "login.html"
           (Some "Usuario o contraseña incorrectos") 401), s) ∨
  ∃ row, old_main.USERS_DB !! uname = Some row ∧
         old_main.password row = pass ∧
         old_main.login uname pass s =
           (Ok (RedirectResponse
                  (if String.eqb (old_main.ud_role row) "admin"
                   then "/admon" else "/informe") 303),
            <["user" := VDict (old_main.session_user uname row)]> s).
Proof.
  unfold old_main.login.
  destruct (old_main.USERS_DB !! uname) as [row|] eqn:Hrow; [|by left].
  destruct (String.eqb_spec (old_main.password row) pass) as [Heq | Hne];
    [|by left].
  right. exists row. split; [done|]. split; [done|].
  unfold bind, session_set; simpl.
  by destruct (String.eqb (old_main.ud_role row) "admin").
Qed.


(** X17.  In [old_main.py] the admin panel is served exactly when the
    session [user] entry is a dict whose [role] entry is the string
    ["admin"]; no other check is made on the entry.  The panel never
    writes to the session: the legacy variant records no path to return
    to. *)
Theorem old_main_admin_panel_iff (s : Session) :
  (old_main.admin_panel s).2 = s ∧
  ((old_main.admin_panel s).1 = Ok (TemplateResponse "admon.html" None 200) ↔
   ∃ d, s !! "user" = Some (VDict d) ∧ d !! "role" = Some (VStr "admin")).
Proof.
  unfold old_main.admin_panel, old_main.get_current_user_required,
    old_main.get_current_user, old_main.require_admin, bind, lift,
    session_get, ret, raise.
  destruct (s !! "user") as [v|] eqn:Hv; simpl.
  2: { split; [done|]. split; [done | by intros (d & ? & _)]. }
  destruct (truthy v) eqn:Ht; simpl.
  2: { split; [done|]. split; [done|]. intros (d & [= ->] & Hrole).
       simpl in Ht. apply negb_false_iff, bool_decide_eq_true in Ht.
       by rewrite Ht, lookup_empty in Hrole. }
  destruct v as [| | | | |d]; simpl;
    try (split; [done|]; split; [done | by intros (d & [= ?] & _)]).
  destruct (d !! "role") as [[| | |r| |]|] eqn:Hrole; simpl;
    try (split; [done|]; split; [done | by intros (d' & [= <-] & ?); congruence]).
  destruct (String.eqb_spec r "admin") as [-> | Hne]; simpl.
  - split; [done|]. split; [|done]. intros _. by exists d.
  - split; [done|]. split; [done|]. intros (d' & [= <-] & ?). congruence.
Qed.

(** X18.  In [old_main.py] the redirect chosen by [login] agrees with the
    access check that follows: on the session left by a login redirected
    to [/admon] the admin panel is served, and on the session left by a
    login redirected to [/informe] the admin panel answers 403 while the
    report page is served. *)
Theorem old_main_login_redirect_consistent (uname pass : string) (s : Session) :
  let s' := (old_main.login uname pass s).2 in
  ((old_main.login uname pass s).1 = Ok (RedirectResponse "/admon" 303) →
   (old_main.admin_panel s').1 = Ok (TemplateResponse "admon.html" None 200)) ∧
  ((old_main.login uname pass s).1 = Ok (RedirectResponse "/informe" 303) →
   exception_handlers (old_main.admin_panel s').1 =
     Ok (TemplateResponse "error_403.html"
           (Some "Acceso denegado: se requiere rol de administrador") 403) ∧
   (old_main.informe s').1 = Ok (TemplateResponse "informe.html" None 200)).
Proof.
  intros s'. subst s'.
  destruct (old_main_login_cases uname pass s)
    as [Hrej | (row & Hrow & Hpass & Hlogin)]; rewrite Hlogin || rewrite Hrej;
    cbn [fst snd]; [done|].
  assert (Hget : ∀ page,
    bind old_main.get_current_user_required
         (λ _, ret (TemplateResponse page None 200))
         (<["user" := VDict (old_main.session_user uname row)]> s)
    = (Ok (TemplateResponse page None 200),
       <["user" := VDict (old_main.session_user uname row)]> s)).
  { intros page.
    unfold old_main.get_current_user_required, old_main.get_current_user,
      bind, session_get.
    rewrite lookup_insert_eq. cbn [truthy_opt truthy].
    rewrite bool_decide_eq_false_2 by apply old_main_session_user_nonempty.
    done. }
  assert (Hpanel : (old_main.admin_panel
                      (<["user" := VDict (old_main.session_user uname row)]> s)).1
                   = if String.eqb (old_main.ud_role row) "admin"
                     then Ok (TemplateResponse "admon.html" None 200)
                     else Raise (HTTPException 403
                            "Acceso denegado: se requiere rol de administrador")).
  { unfold old_main.admin_panel, old_main.get_current_user_required,
      old_main.get_current_user, bind, session_get, lift.
    rewrite lookup_insert_eq. cbn [truthy_opt truthy].
    rewrite bool_decide_eq_false_2 by apply old_main_session_user_nonempty.
    cbn [negb default]. unfold ret, id, old_main.require_admin,
      old_main.session_user.
    do 2 (rewrite lookup_insert_ne by done). rewrite lookup_insert_eq.
    by destruct (String.eqb (old_main.ud_role row) "admin"). }
  rewrite Hpanel.
  destruct (String.eqb (old_main.ud_role row) "admin"); split; try done.
  intros _. split; [done|]. unfold old_main.informe. by rewrite Hget.
Qed.

Lemma old_main_login_redirect_consistent_witness :
  (old_main.admin_panel (old_main.login "admon" "admin" ∅).2).1
  = Ok (TemplateResponse "admon.html" None 200).
Proof.
  exact (proj1 (old_main_login_redirect_consistent "admon" "admin" ∅) eq_refl).
Defined.
